(** * The light-transition detector of the chest sound-effect app

    A shallow embedding of [detectLightLevel] (script.js, lines 154-197) and
    of the module-level variables it reads and writes, followed by the
    properties the specification states about it.  The later copies of the
    function (script.js, lines 356-400, and src/unnamed/part_001, lines
    177-224) wrap the same statements in a try block; the first version
    (src/unnamed/part_000) is embedded separately as [Legacy].

    The browser supplies two things on every timer tick: the pixel the
    camera frame was reduced to and [Date.now()].  Both are arguments here.
    Playing a sound is the only effect visible outside the module; a call to
    [playChestOpenSound] is recorded as [OpenedEvent] and a call to
    [playChestCloseSound] as [ClosedEvent], in the order of the calls. *)

From Stdlib Require Import String.
From Stdlib Require Import ZArith List Bool Lia.
Import ListNotations.
Open Scope Z_scope.

(** ** Data *)

Inductive Event : Type :=
| OpenedEvent   (* playChestOpenSound()  *)
| ClosedEvent.  (* playChestCloseSound() *)

(** The module-level variables of script.js that the detector touches
    (lines 24-30).  Brightness values and times are JavaScript numbers that
    only ever hold integers here, hence [Z]. *)
Record Globals : Type := mkGlobals {
  sensitivity        : Z;
  isChestOpen        : bool;
  previousLightLevel : Z;
  lastTriggerTime    : Z
}.

(** [const triggerCooldown = 2000;] (line 31) *)
Definition triggerCooldown : Z := 2000.

(** The values the variables are declared with. *)
Definition initialGlobals : Globals :=
  {| sensitivity := 10; isChestOpen := false;
     previousLightLevel := 0; lastTriggerTime := 0 |}.

(** Assignments to a single variable. *)
Definition set_sensitivity (v : Z) (g : Globals) : Globals :=
  {| sensitivity := v; isChestOpen := isChestOpen g;
     previousLightLevel := previousLightLevel g;
     lastTriggerTime := lastTriggerTime g |}.

Definition set_isChestOpen (v : bool) (g : Globals) : Globals :=
  {| sensitivity := sensitivity g; isChestOpen := v;
     previousLightLevel := previousLightLevel g;
     lastTriggerTime := lastTriggerTime g |}.

Definition set_previousLightLevel (v : Z) (g : Globals) : Globals :=
  {| sensitivity := sensitivity g; isChestOpen := isChestOpen g;
     previousLightLevel := v;
     lastTriggerTime := lastTriggerTime g |}.

Definition set_lastTriggerTime (v : Z) (g : Globals) : Globals :=
  {| sensitivity := sensitivity g; isChestOpen := isChestOpen g;
     previousLightLevel := previousLightLevel g;
     lastTriggerTime := v |}.

(** ** The sample

    [Math.round((pixelData[0] + pixelData[1] + pixelData[2]) / 3)]
    (line 164).  The quotient has fractional part 0, 1/3 or 2/3, so rounding
    to the nearest integer is the floor of the quotient plus one half. *)
Definition brightnessOf (r g b : Z) : Z := (2 * (r + g + b) + 3) / 6.

(** ** The detector

    Lines 170-196 of [detectLightLevel], after the frame has been reduced to
    [brightness] and [Date.now()] has been read into [currentTime].  The
    result is the sounds played by the call and the variables after it. *)
Definition detectLightLevel (g : Globals) (brightness currentTime : Z)
  : list Event * Globals :=
  (* if (currentTime - lastTriggerTime < triggerCooldown) return; *)
  if currentTime - lastTriggerTime g <? triggerCooldown then ([], g)
  else
    let lightDifference := brightness - previousLightLevel g in
    let '(played, g1) :=
      if (lightDifference >? sensitivity g) && negb (isChestOpen g) then
        ([OpenedEvent],
         set_lastTriggerTime currentTime (set_isChestOpen true g))
      else if (lightDifference <? - sensitivity g) && isChestOpen g then
        ([ClosedEvent],
         set_lastTriggerTime currentTime (set_isChestOpen false g))
      else ([], g) in
    (* if (currentTime - lastTriggerTime >= triggerCooldown) ... *)
    let g2 :=
      if currentTime - lastTriggerTime g1 >=? triggerCooldown
      then set_previousLightLevel brightness g1
      else g1 in
    (played, g2).

(** The two halves of the result. *)
Definition played (g : Globals) (brightness currentTime : Z) : list Event :=
  fst (detectLightLevel g brightness currentTime).

Definition after (g : Globals) (brightness currentTime : Z) : Globals :=
  snd (detectLightLevel g brightness currentTime).

(** ** The callers

    The slider listener (lines 34-37) and the start handler (lines 112-114
    and 122-125) are the other writers of the detector's variables.  The
    start handler resets two variables, and one second later takes a first
    reading and makes it the baseline; [firstReading] is that step for a
    call that passes the guard of line 155, where the displayed text is the
    brightness just computed. *)
Definition sensitivityInput (v : Z) (g : Globals) : Globals :=
  set_sensitivity v g.

Definition resetOnStart (g : Globals) : Globals :=
  set_lastTriggerTime 0 (set_previousLightLevel 0 g).

Definition firstReading (g : Globals) (brightness currentTime : Z)
  : list Event * Globals :=
  let '(played, g1) := detectLightLevel g brightness currentTime in
  (played, set_previousLightLevel brightness g1).

(** What can happen to the variables, one item per callback run. *)
Inductive Input : Type :=
| Sample (brightness currentTime : Z)        (* a timer tick           *)
| Slider (value : Z)                         (* the slider is moved    *)
| Start                                      (* the start button       *)
| FirstReading (brightness currentTime : Z). (* the stabilising timeout *)

Definition step (g : Globals) (i : Input) : list Event * Globals :=
  match i with
  | Sample b t => detectLightLevel g b t
  | Slider v => ([], sensitivityInput v g)
  | Start => ([], resetOnStart g)
  | FirstReading b t => firstReading g b t
  end.

Fixpoint run (g : Globals) (inputs : list Input) : list Event * Globals :=
  match inputs with
  | [] => ([], g)
  | i :: rest =>
      let '(played, g1) := step g i in
      let '(later, g2) := run g1 rest in
      (played ++ later, g2)
  end.

(** The states the page can be in. *)
Definition reachable (g : Globals) : Prop :=
  exists inputs, snd (run initialGlobals inputs) = g.

(** A stream of samples of one value, observed at the given times. *)
Definition constantSamples (c : Z) (times : list Z) : list Input :=
  map (Sample c) times.

(** Consecutive events differ and the first one is the one [isOpen] allows:
    opening when closed, closing when open. *)
Fixpoint alternates (isOpen : bool) (evs : list Event) : bool :=
  match evs with
  | [] => true
  | OpenedEvent :: rest => negb isOpen && alternates true rest
  | ClosedEvent :: rest => isOpen && alternates false rest
  end.

(** The four ways a call can end, read off the branches of the source. *)
Inductive Outcome (g : Globals) (brightness currentTime : Z)
  : list Event * Globals -> Prop :=
| LockedOut :
    currentTime - lastTriggerTime g < triggerCooldown ->
    Outcome g brightness currentTime ([], g)
| Opens :
    triggerCooldown <= currentTime - lastTriggerTime g ->
    sensitivity g < brightness - previousLightLevel g ->
    isChestOpen g = false ->
    Outcome g brightness currentTime
      ([OpenedEvent], set_lastTriggerTime currentTime (set_isChestOpen true g))
| Closes :
    triggerCooldown <= currentTime - lastTriggerTime g ->
    brightness - previousLightLevel g < - sensitivity g ->
    isChestOpen g = true ->
    Outcome g brightness currentTime
      ([ClosedEvent], set_lastTriggerTime currentTime (set_isChestOpen false g))
| Quiet :
    triggerCooldown <= currentTime - lastTriggerTime g ->
    (isChestOpen g = false -> brightness - previousLightLevel g <= sensitivity g) ->
    (isChestOpen g = true -> - sensitivity g <= brightness - previousLightLevel g) ->
    Outcome g brightness currentTime ([], set_previousLightLevel brightness g).

(** ** The algorithm in the words of section 4.1 of the specification

    Written from the six numbered steps, independently of the source, to be
    compared with [detectLightLevel]. *)
Module Spec.

Definition cooldownDuration : Z := 2000.

(** Steps 1 to 5: the lockout, then the transition rule. *)
Definition evaluate (st : Globals) (sample now : Z) : option Event * Globals :=
  if now - lastTriggerTime st <? cooldownDuration then (None, st)
  else
    let delta := sample - previousLightLevel st in
    if (delta >? sensitivity st) && negb (isChestOpen st) then
      (Some OpenedEvent,
       set_lastTriggerTime now (set_isChestOpen true st))
    else if (delta <? - sensitivity st) && isChestOpen st then
      (Some ClosedEvent,
       set_lastTriggerTime now (set_isChestOpen false st))
    else (None, st).

(** Step 6, applied after steps 1 to 5 whatever they did. *)
Definition rebase (st : Globals) (sample now : Z) : Globals :=
  if now - lastTriggerTime st >=? cooldownDuration
  then set_previousLightLevel sample st
  else st.

Definition observe (st : Globals) (sample now : Z) : option Event * Globals :=
  let '(ev, st1) := evaluate st sample now in
  (ev, rebase st1 sample now).

End Spec.

(** An optional event as the list of sounds played. *)
Definition emitted (ev : option Event) : list Event :=
  match ev with
  | Some e => [e]
  | None => []
  end.

(** ** The first version of the detector (src/unnamed/part_000, lines 70-93)

    It has neither [lastTriggerTime] nor a cooldown, and it rebases on every
    call. *)
Module Legacy.

Record Globals : Type := mkGlobals {
  previousLightLevel : Z;
  sensitivity        : Z;
  isChestOpen        : bool
}.

Definition detectLightLevel (g : Globals) (brightness : Z)
  : list Event * Globals :=
  let lightDifference := brightness - previousLightLevel g in
  let '(played, open) :=
    if (lightDifference >? sensitivity g) && negb (isChestOpen g) then
      ([OpenedEvent], true)
    else if (lightDifference <? - sensitivity g) && isChestOpen g then
      ([ClosedEvent], false)
    else ([], isChestOpen g) in
  (played,
   {| previousLightLevel := brightness;
      sensitivity := sensitivity g;
      isChestOpen := open |}).

End Legacy.

(** The variables the two versions share. *)
Definition legacyView (g : Globals) : Legacy.Globals :=
  Legacy.mkGlobals (previousLightLevel g) (sensitivity g) (isChestOpen g).

(** ** Observations on a run *)

(** The time a callback run read from [Date.now()], when it ran the
    detector. *)
Definition inputTime (i : Input) : option Z :=
  match i with
  | Sample _ t | FirstReading _ t => Some t
  | Slider _ | Start => None
  end.

(** The times of the callback runs that played a sound, in order. *)
Fixpoint triggerTimes (g : Globals) (inputs : list Input) : list Z :=
  match inputs with
  | [] => []
  | i :: rest =>
      let later := triggerTimes (snd (step g i)) rest in
      match fst (step g i), inputTime i with
      | _ :: _, Some t => t :: later
      | _, _ => later
      end
  end.

(** Every time of the list is at least [triggerCooldown] after the one
    before it, the first one after [last]. *)
Fixpoint spacedFrom (last : Z) (times : list Z) : Prop :=
  match times with
  | [] => True
  | t :: rest => triggerCooldown <= t - last /\ spacedFrom t rest
  end.

Definition isStart (i : Input) : bool :=
  match i with
  | Start => true
  | _ => false
  end.

(** What the last event of a list says about the chest, [isOpen] when the
    list is empty. *)
Definition flagAfter (isOpen : bool) (evs : list Event) : bool :=
  fold_left (fun _ e => match e with
                        | OpenedEvent => true
                        | ClosedEvent => false
                        end) evs isOpen.

(** The value the slider was last moved to, [s] when it was not moved. *)
Definition sensitivityAfter (s : Z) (inputs : list Input) : Z :=
  fold_left (fun s i => match i with
                        | Slider v => v
                        | _ => s
                        end) inputs s.

(** A timer tick that falls inside the cooldown window of [g]. *)
Definition insideWindow (g : Globals) (i : Input) : bool :=
  match i with
  | Sample _ t => t - lastTriggerTime g <? triggerCooldown
  | _ => false
  end.

(** A brightness as a canvas pixel can give it. *)
Definition inRange (b : Z) : bool := (0 <=? b) && (b <=? 255).

Definition sampleInRange (i : Input) : bool :=
  match i with
  | Sample b _ | FirstReading b _ => inRange b
  | Slider _ | Start => true
  end.

Definition sliderAtLeast (m : Z) (i : Input) : bool :=
  match i with
  | Slider v => m <=? v
  | _ => true
  end.

(** The first version of the detector over a stream of samples. *)
Fixpoint legacyRun (g : Legacy.Globals) (samples : list Z)
  : list Event * Legacy.Globals :=
  match samples with
  | [] => ([], g)
  | b :: rest =>
      let '(played, g1) := Legacy.detectLightLevel g b in
      let '(later, g2) := legacyRun g1 rest in
      (played ++ later, g2)
  end.

(** ** Camera constraints (script.js, lines 40-80)

    [applyAdvancedCameraConstraints] reads the capabilities of the video
    track, collects the manual settings the track offers and applies them.
    The numbers are the ones of the browser; [mid max min] stands for
    [(max + min) / 2] on them. *)
Record Range (num : Type) : Type := mkRange {
  rangeMin : num;
  rangeMax : num
}.
Arguments mkRange {num}.
Arguments rangeMin {num}.
Arguments rangeMax {num}.

Module Capabilities.

(** The members of [track.getCapabilities()] the function looks at; [None]
    is a member the browser does not report. *)
Record t (num : Type) : Type := mk {
  focusMode        : option (list string);
  focusDistance    : option (Range num);
  exposureMode     : option (list string);
  exposureTime     : option (Range num);
  whiteBalanceMode : option (list string)
}.
Arguments mk {num}.
Arguments focusMode {num}.
Arguments focusDistance {num}.
Arguments exposureMode {num}.
Arguments exposureTime {num}.
Arguments whiteBalanceMode {num}.

End Capabilities.

Module Settings.

(** The object [settings]; [None] is a key that was not set. *)
Record t (num : Type) : Type := mk {
  focusMode        : option string;
  focusDistance    : option num;
  exposureMode     : option string;
  exposureTime     : option num;
  whiteBalanceMode : option string
}.
Arguments mk {num}.
Arguments focusMode {num}.
Arguments focusDistance {num}.
Arguments exposureMode {num}.
Arguments exposureTime {num}.
Arguments whiteBalanceMode {num}.

End Settings.

(** [modes && modes.includes(m)] *)
Definition includes (modes : option (list string)) (m : string) : bool :=
  match modes with
  | Some l => existsb (String.eqb m) l
  | None => false
  end.

(** Lines 43-68: the settings collected from the capabilities. *)
Definition manualSettings {num : Type} (mid : num -> num -> num)
  (c : Capabilities.t num) : Settings.t num :=
  let focus := includes (Capabilities.focusMode c) "manual" in
  let exposure := includes (Capabilities.exposureMode c) "manual" in
  let balance := includes (Capabilities.whiteBalanceMode c) "manual" in
  {| Settings.focusMode := if focus then Some "manual"%string else None;
     Settings.focusDistance :=
       if focus then option_map rangeMax (Capabilities.focusDistance c)
       else None;
     Settings.exposureMode := if exposure then Some "manual"%string else None;
     Settings.exposureTime :=
       if exposure
       then option_map (fun r => mid (rangeMax r) (rangeMin r))
              (Capabilities.exposureTime c)
       else None;
     Settings.whiteBalanceMode :=
       if balance then Some "manual"%string else None |}.

Definition isSet {A : Type} (o : option A) : nat :=
  match o with
  | Some _ => 1%nat
  | None => 0%nat
  end.

(** [Object.keys(settings).length] *)
Definition keys {num : Type} (s : Settings.t num) : nat :=
  (isSet (Settings.focusMode s) + isSet (Settings.focusDistance s)
   + isSet (Settings.exposureMode s) + isSet (Settings.exposureTime s)
   + isSet (Settings.whiteBalanceMode s))%nat.

(** How a call ends. *)
Inductive ConstraintOutcome (num : Type) : Type :=
| Applied (settings : Settings.t num) (* applyConstraints resolved          *)
| NotSupported                        (* 'Camera does not support manual controls' *)
| Caught.                             (* the catch block                    *)
Arguments Applied {num}.
Arguments NotSupported {num}.
Arguments Caught {num}.

(** The function.  [getCapabilities] is [None] when the call throws, and
    [applyConstraints] tells whether the promise of
    [track.applyConstraints({ advanced: [settings] })] resolves. *)
Definition applyAdvancedCameraConstraints {num : Type} (mid : num -> num -> num)
  (getCapabilities : option (Capabilities.t num))
  (applyConstraints : Settings.t num -> bool) : ConstraintOutcome num :=
  match getCapabilities with
  | None => Caught
  | Some capabilities =>
      let settings := manualSettings mid capabilities in
      if (0 <? keys settings)%nat then
        if applyConstraints settings then Applied settings else Caught
      else NotSupported
  end.

(** ** The functions as the page runs them

    The whole of [detectLightLevel] and of the two sound functions, with the
    calls into the browser and the exceptions those calls can raise.  What
    the browser answers during one call is an argument; the elements looked
    up at lines 10-16 are taken to exist. *)

(** How a statement list ends. *)
Inductive Completion (A : Type) : Type :=
| Normal (a : A)  (* it ran to its end or to a return *)
| Throw.          (* an exception left it             *)
Arguments Normal {A}.
Arguments Throw {A}.

(** What [play()] does on an audio element: it returns a promise, which is
    later fulfilled or rejected; or it returns [undefined], the case the
    later version tests for at lines 428 and 449; or it throws. *)
Inductive PlayResult : Type :=
| PlayPromise (fulfilled : bool)
| PlayUndefined
| PlayThrows.

(** The answers of the browser during one call of [detectLightLevel]. *)
Record Browser : Type := mkBrowser {
  videoWidth   : Z;                       (* camera.videoWidth          *)
  drawImage    : Completion unit;         (* ctx.drawImage(...)         *)
  getImageData : Completion (Z * Z * Z);  (* the first three bytes read *)
  dateNow      : Z;                       (* Date.now()                 *)
  play         : PlayResult               (* play() on a chest sound    *)
}.

(** The variables of the module and what the page shows and has played:
    the text of the light-level display ([None] is the text the page was
    loaded with) and the sound functions called so far, latest last. *)
Record Page : Type := mkPage {
  vars           : Globals;
  isActive       : bool;
  lightLevelText : option Z;
  playCalls      : list Event
}.

(** Statements: they read and write the page, and they complete. *)
Definition JS (A : Type) : Type := Page -> Completion A * Page.

Definition ret {A : Type} (a : A) : JS A := fun p => (Normal a, p).

Definition bind {A B : Type} (m : JS A) (k : A -> JS B) : JS B :=
  fun p =>
    match m p with
    | (Normal a, p1) => k a p1
    | (Throw, p1) => (Throw, p1)
    end.

Definition andThen {A B : Type} (m : JS A) (k : JS B) : JS B :=
  bind m (fun _ => k).

(** A call into the browser with the given completion. *)
Definition browserCall {A : Type} (c : Completion A) : JS A := fun p => (c, p).

Definition readVars : JS Globals := fun p => (Normal (vars p), p).

Definition assign (f : Globals -> Globals) : JS unit :=
  fun p => (Normal tt,
            mkPage (f (vars p)) (isActive p) (lightLevelText p) (playCalls p)).

(** [lightLevelDisplay.textContent = brightness;] *)
Definition showLightLevel (brightness : Z) : JS unit :=
  fun p => (Normal tt,
            mkPage (vars p) (isActive p) (Some brightness) (playCalls p)).

(** Entering one of the two sound functions. *)
Definition soundCalled (e : Event) : JS unit :=
  fun p => (Normal tt,
            mkPage (vars p) (isActive p) (lightLevelText p) (playCalls p ++ [e])).

(** [try { body } catch (e) { }] *)
Definition tryCatch (body : JS unit) : JS unit :=
  fun p =>
    match body p with
    | (Normal _, p1) => (Normal tt, p1)
    | (Throw, p1) => (Normal tt, p1)
    end.

(** Lines 175-196, the same in both versions but for the sound function
    called: the two tests, the assignments after a sound, and the rebase. *)
Definition transitions (playSound : Event -> JS unit) (brightness currentTime : Z)
  : JS unit :=
  bind readVars (fun g =>
  let lightDifference := brightness - previousLightLevel g in
  andThen
    (if (lightDifference >? sensitivity g) && negb (isChestOpen g) then
       andThen (playSound OpenedEvent)
      (andThen (assign (set_isChestOpen true))
               (assign (set_lastTriggerTime currentTime)))
     else if (lightDifference <? - sensitivity g) && isChestOpen g then
       andThen (playSound ClosedEvent)
      (andThen (assign (set_isChestOpen false))
               (assign (set_lastTriggerTime currentTime)))
     else ret tt)
    (bind readVars (fun g1 =>
     if currentTime - lastTriggerTime g1 >=? triggerCooldown
     then assign (set_previousLightLevel brightness)
     else ret tt))).

(** Lines 157-196: the frame, the display, the cooldown test and the
    transitions. *)
Definition sampleAndDetect (playSound : Event -> JS unit) (b : Browser) : JS unit :=
  andThen (browserCall (drawImage b))
  (bind (browserCall (getImageData b)) (fun pixelData =>
   let '(red, green, blue) := pixelData in
   let brightness := brightnessOf red green blue in
   andThen (showLightLevel brightness)
   (let currentTime := dateNow b in
    bind readVars (fun g =>
    if currentTime - lastTriggerTime g <? triggerCooldown then ret tt
    else transitions playSound brightness currentTime)))).

(** The version of script.js, lines 153-211. *)
Module Script.

(** [playChestOpenSound] and [playChestCloseSound] (lines 200-211):
    [sound.currentTime = 0; sound.play().catch(...);].  A rejected promise
    is handled by the function passed to [catch]; on [undefined] the member
    access [.catch] throws. *)
Definition playChestSound (b : Browser) (e : Event) : JS unit :=
  andThen (soundCalled e)
    (match play b with
     | PlayPromise _ => ret tt
     | PlayUndefined => browserCall Throw
     | PlayThrows => browserCall Throw
     end).

(** Lines 154-197. *)
Definition detectLightLevel (b : Browser) : JS unit :=
  fun p =>
    if negb (isActive p) || (videoWidth b =? 0) then ret tt p
    else sampleAndDetect (playChestSound b) b p.

End Script.

(** The later version of script.js, lines 355-462. *)
Module ScriptTry.

(** [playChestOpenSound] and [playChestCloseSound] (lines 423-462):
    [const playPromise = sound.play(); if (playPromise !== undefined)
    { playPromise.catch(...) }].  The retry the handler schedules runs after
    the call. *)
Definition playChestSound (b : Browser) (e : Event) : JS unit :=
  andThen (soundCalled e)
    (match play b with
     | PlayPromise _ => ret tt
     | PlayUndefined => ret tt
     | PlayThrows => browserCall Throw
     end).

(** Lines 356-400: the guard, then the body inside [try], with an empty
    [catch]. *)
Definition detectLightLevel (b : Browser) : JS unit :=
  fun p =>
    if negb (isActive p) || (videoWidth b =? 0) then ret tt p
    else tryCatch (sampleAndDetect (playChestSound b) b) p.

End ScriptTry.

(** A browser that hands over a frame: the guard of the first line is
    passed and the two canvas calls return. *)
Definition framed (b : Browser) (p : Page) (red green blue : Z) : Prop :=
  isActive p = true /\ videoWidth b <> 0
  /\ drawImage b = Normal tt
  /\ getImageData b = Normal (red, green, blue).

(** The page after a call that went the way of the detector of lines
    170-196 on the sample of the frame. *)
Definition pageAfter (b : Browser) (p : Page) (red green blue : Z) : Page :=
  mkPage (after (vars p) (brightnessOf red green blue) (dateNow b))
         (isActive p)
         (Some (brightnessOf red green blue))
         (playCalls p ++ played (vars p) (brightnessOf red green blue) (dateNow b)).

(** A play call that completes: a promise came back, or the version
    tolerates [undefined]. *)
Definition isPromise (r : PlayResult) : bool :=
  match r with
  | PlayPromise _ => true
  | PlayUndefined | PlayThrows => false
  end.

Definition throwsNot (r : PlayResult) : bool :=
  match r with
  | PlayPromise _ | PlayUndefined => true
  | PlayThrows => false
  end.

(** A page with the chest closed, baseline 50, sensitivity 10 and no recent
    trigger, and a browser that hands over a grey frame of level 70 at time
    5000 and whose [play()] returns [undefined]. *)
Definition closedPage : Page :=
  mkPage (mkGlobals 10 false 50 0) true None [].

Definition promiselessBrowser : Browser :=
  mkBrowser 320 (Normal tt) (Normal (70, 70, 70)) 5000 PlayUndefined.

(** ** Branch lemmas *)

Lemma rebase_after_trigger (g : Globals) (brightness currentTime : Z) :
  lastTriggerTime g = currentTime ->
  (if currentTime - lastTriggerTime g >=? triggerCooldown
   then set_previousLightLevel brightness g else g) = g.
Proof.
  intros ->. rewrite Z.sub_diag. reflexivity.
Qed.

Lemma rebase_when_elapsed (g : Globals) (brightness currentTime : Z) :
  triggerCooldown <= currentTime - lastTriggerTime g ->
  (if currentTime - lastTriggerTime g >=? triggerCooldown
   then set_previousLightLevel brightness g else g)
  = set_previousLightLevel brightness g.
Proof.
  intros H. destruct (Z.geb_spec (currentTime - lastTriggerTime g) triggerCooldown);
    [reflexivity | lia].
Qed.

Lemma detect_outcome (g : Globals) (brightness currentTime : Z) :
  Outcome g brightness currentTime (detectLightLevel g brightness currentTime).
Proof.
  unfold detectLightLevel.
  destruct (Z.ltb_spec (currentTime - lastTriggerTime g) triggerCooldown) as [Hin | Hout].
  { now apply LockedOut. }
  destruct (Z.gtb_spec (brightness - previousLightLevel g) (sensitivity g)) as [Hup | Hup];
    destruct (Z.ltb_spec (brightness - previousLightLevel g) (- sensitivity g)) as [Hdn | Hdn];
    destruct (isChestOpen g) eqn:Hopen; cbn [andb negb];
    rewrite ?rebase_after_trigger by reflexivity;
    rewrite ?rebase_when_elapsed by assumption;
    solve [ apply Opens; assumption
          | apply Closes; assumption
          | apply Quiet; [assumption | intros; (lia || congruence) ..] ].
Qed.

(** Split a goal about one call along the four outcomes of that call. *)
Ltac by_outcome g b t :=
  unfold played, after in *;
  destruct (detect_outcome g b t); cbn [fst snd] in *.

Lemma detect_locked (g : Globals) (sample now : Z) :
  now - lastTriggerTime g < triggerCooldown ->
  detectLightLevel g sample now = ([], g).
Proof.
  intros H. by_outcome g sample now; solve [reflexivity | lia].
Qed.

Lemma detect_opens (g : Globals) (sample now : Z) :
  triggerCooldown <= now - lastTriggerTime g ->
  sample - previousLightLevel g > sensitivity g ->
  isChestOpen g = false ->
  detectLightLevel g sample now
  = ([OpenedEvent], set_lastTriggerTime now (set_isChestOpen true g)).
Proof.
  intros Hcd Hup Hopen.
  by_outcome g sample now; solve [reflexivity | lia | congruence | intuition lia].
Qed.

Lemma detect_closes (g : Globals) (sample now : Z) :
  triggerCooldown <= now - lastTriggerTime g ->
  sample - previousLightLevel g < - sensitivity g ->
  isChestOpen g = true ->
  detectLightLevel g sample now
  = ([ClosedEvent], set_lastTriggerTime now (set_isChestOpen false g)).
Proof.
  intros Hcd Hdn Hopen.
  by_outcome g sample now; solve [reflexivity | lia | congruence | intuition lia].
Qed.

Lemma detect_quiet (g : Globals) (sample now : Z) :
  triggerCooldown <= now - lastTriggerTime g ->
  (isChestOpen g = false -> sample - previousLightLevel g <= sensitivity g) ->
  (isChestOpen g = true -> - sensitivity g <= sample - previousLightLevel g) ->
  detectLightLevel g sample now = ([], set_previousLightLevel sample g).
Proof.
  intros Hcd Hup Hdn.
  by_outcome g sample now; solve [reflexivity | lia | intuition lia].
Qed.

(** One call, at most one sound. *)
Lemma played_at_most_one (g : Globals) (sample now : Z) :
  (length (played g sample now) <= 1)%nat.
Proof.
  by_outcome g sample now; simpl; lia.
Qed.

(** ** The observe step and the algorithm of section 4.1 *)

(** C1.  The observe step is the algorithm of section 4.1: on every state,
    sample and time [detectLightLevel] returns the event and the state that
    steps 1 to 6 of the specification prescribe ([Spec.observe]); the call
    ends in one of the four branches of the algorithm, with the delta
    [sample - previousLightLevel] compared against the sensitivity as the
    steps say; and a call plays at most one event. *)
Theorem detectLightLevel_implements_observe (g : Globals) (sample now : Z) :
  detectLightLevel g sample now
  = (emitted (fst (Spec.observe g sample now)), snd (Spec.observe g sample now))
  /\ Outcome g sample now (detectLightLevel g sample now)
  /\ (length (played g sample now) <= 1)%nat.
Proof.
  split; [| split; [apply detect_outcome | apply played_at_most_one]].
  unfold detectLightLevel, Spec.observe, Spec.evaluate, Spec.rebase,
    Spec.cooldownDuration, triggerCooldown.
  destruct (Z.ltb_spec (now - lastTriggerTime g) 2000) as [Hin | Hout].
  - cbn [fst snd emitted].
    destruct (Z.geb_spec (now - lastTriggerTime g) 2000); [lia | reflexivity].
  - destruct ((sample - previousLightLevel g >? sensitivity g) && negb (isChestOpen g)).
    + reflexivity.
    + destruct ((sample - previousLightLevel g <? - sensitivity g) && isChestOpen g);
        reflexivity.
Qed.

(** C2.  Inside the cooldown window, that is when
    [now - lastTriggerTime < triggerCooldown] with [triggerCooldown] equal to
    2000 ms, a call plays no event and leaves [isChestOpen] as it was,
    whatever the sample; in fact it leaves every variable as it was. *)
Theorem cooldown_is_strict_lockout (g : Globals) (sample now : Z) :
  now - lastTriggerTime g < triggerCooldown ->
  triggerCooldown = 2000
  /\ played g sample now = []
  /\ isChestOpen (after g sample now) = isChestOpen g
  /\ after g sample now = g.
Proof.
  intros Hin. unfold played, after.
  rewrite (detect_locked g sample now Hin). repeat split.
Qed.

Lemma cooldown_is_strict_lockout_witness :
  1500 - lastTriggerTime (mkGlobals 10 true 50 1000) < triggerCooldown
  /\ played (mkGlobals 10 true 50 1000) 0 1500 = []
  /\ isChestOpen (after (mkGlobals 10 true 50 1000) 0 1500) = true.
Proof.
  assert (Hin : 1500 - lastTriggerTime (mkGlobals 10 true 50 1000) < triggerCooldown)
    by (vm_compute; reflexivity).
  split; [exact Hin |].
  destruct (cooldown_is_strict_lockout (mkGlobals 10 true 50 1000) 0 1500 Hin)
    as (_ & Hnone & Hopen & _).
  split; [exact Hnone | exact Hopen].
Defined.

(** C3.  [previousLightLevel] becomes the sample exactly when the call ends
    outside the cooldown window, the window being measured with
    [lastTriggerTime] as the call leaves it; otherwise it keeps the value it
    had.  So it is frozen on a call that plays an event and on every call
    made inside the window, and a call changes it in no other way. *)
Theorem previousLightLevel_frame (g : Globals) (sample now : Z) :
  (triggerCooldown <= now - lastTriggerTime (after g sample now) ->
     previousLightLevel (after g sample now) = sample)
  /\ (now - lastTriggerTime (after g sample now) < triggerCooldown ->
     previousLightLevel (after g sample now) = previousLightLevel g)
  /\ (played g sample now <> [] ->
     previousLightLevel (after g sample now) = previousLightLevel g)
  /\ (now - lastTriggerTime g < triggerCooldown ->
     previousLightLevel (after g sample now) = previousLightLevel g)
  /\ (previousLightLevel (after g sample now) <> previousLightLevel g ->
     previousLightLevel (after g sample now) = sample
     /\ triggerCooldown <= now - lastTriggerTime (after g sample now)).
Proof.
  by_outcome g sample now; cbn [previousLightLevel lastTriggerTime
    set_previousLightLevel set_lastTriggerTime set_isChestOpen];
    unfold triggerCooldown in *; rewrite ?Z.sub_diag;
    repeat split; intros; try reflexivity; try lia; try congruence.
Qed.

Lemma previousLightLevel_frame_witness :
  previousLightLevel (after (mkGlobals 10 false 50 (-2000)) 70 0) = 50
  /\ previousLightLevel (after (mkGlobals 10 true 50 0) 20 500) = 50
  /\ previousLightLevel (after (mkGlobals 10 true 50 0) 45 2100) = 45.
Proof.
  destruct (previousLightLevel_frame (mkGlobals 10 false 50 (-2000)) 70 0)
    as (_ & _ & Htrigger & _).
  destruct (previousLightLevel_frame (mkGlobals 10 true 50 0) 20 500)
    as (_ & _ & _ & Hinside & _).
  destruct (previousLightLevel_frame (mkGlobals 10 true 50 0) 45 2100)
    as (Houtside & _).
  split; [| split].
  - apply Htrigger. vm_compute. discriminate.
  - apply Hinside. vm_compute. reflexivity.
  - apply Houtside. vm_compute. discriminate.
Defined.

(** C4.  Once the cooldown has elapsed, a jump with
    [delta > sensitivity] while the chest is closed plays exactly one
    [OpenedEvent] and sets [isChestOpen]; a drop with [delta < -sensitivity]
    while it is open plays exactly one [ClosedEvent] and clears it. *)
Theorem single_jump_single_event (g : Globals) (sample now : Z) :
  triggerCooldown <= now - lastTriggerTime g ->
  (sample - previousLightLevel g > sensitivity g -> isChestOpen g = false ->
     played g sample now = [OpenedEvent]
     /\ isChestOpen (after g sample now) = true)
  /\ (sample - previousLightLevel g < - sensitivity g -> isChestOpen g = true ->
     played g sample now = [ClosedEvent]
     /\ isChestOpen (after g sample now) = false).
Proof.
  intros Hout. unfold played, after. split; intros Hdelta Hopen.
  - rewrite (detect_opens g sample now Hout Hdelta Hopen). split; reflexivity.
  - rewrite (detect_closes g sample now Hout Hdelta Hopen). split; reflexivity.
Qed.

Lemma single_jump_single_event_witness :
  (played (mkGlobals 10 false 50 0) 61 2000 = [OpenedEvent]
   /\ isChestOpen (after (mkGlobals 10 false 50 0) 61 2000) = true)
  /\ (played (mkGlobals 10 true 50 0) 39 2000 = [ClosedEvent]
   /\ isChestOpen (after (mkGlobals 10 true 50 0) 39 2000) = false).
Proof.
  split.
  - apply (single_jump_single_event (mkGlobals 10 false 50 0) 61 2000);
      vm_compute; (reflexivity || discriminate).
  - apply (single_jump_single_event (mkGlobals 10 true 50 0) 39 2000);
      vm_compute; (reflexivity || discriminate).
Defined.

(** C6 as stated does not hold for every state: with a negative sensitivity
    a delta can exceed the sensitivity and lie below its negation at once,
    and the second test of the detector then fires.  Here the chest is open,
    the delta 0 exceeds the sensitivity -5, and the call closes the chest. *)
Lemma idempotence_fails_for_negative_sensitivity :
  50 - previousLightLevel (mkGlobals (-5) true 50 0)
    > sensitivity (mkGlobals (-5) true 50 0)
  /\ isChestOpen (mkGlobals (-5) true 50 0) = true
  /\ played (mkGlobals (-5) true 50 0) 50 5000 = [ClosedEvent]
  /\ isChestOpen (after (mkGlobals (-5) true 50 0) 50 5000) = false.
Proof.
  repeat split.
Qed.

(** C6, amended.  With a sensitivity that is not negative, a sample whose
    delta points to the state the detector is already in
    ([delta > sensitivity] while open, [delta < -sensitivity] while closed)
    plays no event and leaves [isChestOpen] as it was. *)
Theorem retrigger_is_idempotent (g : Globals) (sample now : Z) :
  0 <= sensitivity g ->
  (sample - previousLightLevel g > sensitivity g /\ isChestOpen g = true)
  \/ (sample - previousLightLevel g < - sensitivity g /\ isChestOpen g = false) ->
  played g sample now = []
  /\ isChestOpen (after g sample now) = isChestOpen g.
Proof.
  intros Hsens Hsame.
  by_outcome g sample now; cbn [isChestOpen set_previousLightLevel];
    solve [ split; reflexivity
          | exfalso; destruct Hsame as [[Hd Ho] | [Hd Ho]]; (congruence || lia) ].
Qed.

Lemma retrigger_is_idempotent_witness :
  played (mkGlobals 10 true 50 0) 90 5000 = []
  /\ isChestOpen (after (mkGlobals 10 true 50 0) 90 5000) = true.
Proof.
  apply (retrigger_is_idempotent (mkGlobals 10 true 50 0) 90 5000).
  - vm_compute. discriminate.
  - left. split; reflexivity.
Defined.

(** C7.  The scenario of the specification: sensitivity 10, cooldown
    2000 ms, baseline 50, chest closed, and a last trigger old enough for the
    cooldown to have elapsed at time 0.  Sample 70 at time 0 opens the chest
    and stamps the trigger time 0; sample 20 at time 500 plays nothing and
    leaves the baseline at 50; sample 20 at time 2100 closes the chest. *)
Theorem concrete_scenario (last0 : Z) :
  triggerCooldown <= 0 - last0 ->
  triggerCooldown = 2000
  /\ detectLightLevel (mkGlobals 10 false 50 last0) 70 0
     = ([OpenedEvent], mkGlobals 10 true 50 0)
  /\ detectLightLevel (mkGlobals 10 true 50 0) 20 500
     = ([], mkGlobals 10 true 50 0)
  /\ detectLightLevel (mkGlobals 10 true 50 0) 20 2100
     = ([ClosedEvent], mkGlobals 10 false 50 2100)
  /\ run (mkGlobals 10 false 50 last0)
       [Sample 70 0; Sample 20 500; Sample 20 2100]
     = ([OpenedEvent; ClosedEvent], mkGlobals 10 false 50 2100).
Proof.
  intros Helapsed.
  assert (Hfirst : detectLightLevel (mkGlobals 10 false 50 last0) 70 0
                   = ([OpenedEvent], mkGlobals 10 true 50 0)).
  { rewrite detect_opens; [reflexivity | exact Helapsed | reflexivity | reflexivity]. }
  repeat split; try assumption.
  cbn [run step]. rewrite Hfirst. reflexivity.
Qed.

Lemma concrete_scenario_witness :
  triggerCooldown <= 0 - (-2000)
  /\ run (mkGlobals 10 false 50 (-2000))
       [Sample 70 0; Sample 20 500; Sample 20 2100]
     = ([OpenedEvent; ClosedEvent], mkGlobals 10 false 50 2100).
Proof.
  assert (Helapsed : triggerCooldown <= 0 - (-2000)) by (vm_compute; discriminate).
  split; [exact Helapsed |].
  apply (concrete_scenario (-2000) Helapsed).
Defined.

(** C8 as stated does not hold: the tests of the detector are strict, so a
    delta whose absolute value equals the sensitivity plays nothing, in
    either direction, even with the matching [isChestOpen] and outside the
    cooldown window. *)
Lemma delta_equal_to_sensitivity_is_ignored :
  Z.abs (60 - previousLightLevel (mkGlobals 10 false 50 0))
    = sensitivity (mkGlobals 10 false 50 0)
  /\ triggerCooldown <= 5000 - lastTriggerTime (mkGlobals 10 false 50 0)
  /\ played (mkGlobals 10 false 50 0) 60 5000 = []
  /\ Z.abs (40 - previousLightLevel (mkGlobals 10 true 50 0))
    = sensitivity (mkGlobals 10 true 50 0)
  /\ played (mkGlobals 10 true 50 0) 40 5000 = [].
Proof.
  repeat split. vm_compute. discriminate.
Qed.

(** C8, amended.  The sensitivity is a strict threshold.  Outside the
    cooldown window a delta whose absolute value equals the sensitivity
    plays no event and leaves [isChestOpen] alone; a delta whose absolute
    value exceeds it plays the event of its direction when [isChestOpen]
    matches: [OpenedEvent] for a rise while closed, [ClosedEvent] for a drop
    while open. *)
Theorem sensitivity_is_strict_threshold (g : Globals) (sample now : Z) :
  triggerCooldown <= now - lastTriggerTime g ->
  (Z.abs (sample - previousLightLevel g) = sensitivity g ->
     played g sample now = []
     /\ isChestOpen (after g sample now) = isChestOpen g)
  /\ (Z.abs (sample - previousLightLevel g) > sensitivity g ->
      sample - previousLightLevel g > 0 -> isChestOpen g = false ->
      played g sample now = [OpenedEvent])
  /\ (Z.abs (sample - previousLightLevel g) > sensitivity g ->
      sample - previousLightLevel g < 0 -> isChestOpen g = true ->
      played g sample now = [ClosedEvent]).
Proof.
  intros Hout. unfold played, after. repeat split.
  - rewrite detect_quiet; [reflexivity | assumption | intros; lia ..].
  - rewrite detect_quiet; [reflexivity | assumption | intros; lia ..].
  - intros Habs Hup Hopen. rewrite detect_opens; [reflexivity | assumption | lia | assumption].
  - intros Habs Hdn Hopen. rewrite detect_closes; [reflexivity | assumption | lia | assumption].
Qed.

Lemma sensitivity_is_strict_threshold_witness :
  played (mkGlobals 10 false 50 0) 60 5000 = []
  /\ played (mkGlobals 10 false 50 0) 61 5000 = [OpenedEvent]
  /\ played (mkGlobals 10 true 50 0) 39 5000 = [ClosedEvent].
Proof.
  assert (Hclosed : triggerCooldown <= 5000 - lastTriggerTime (mkGlobals 10 false 50 0))
    by (vm_compute; discriminate).
  assert (Hopen : triggerCooldown <= 5000 - lastTriggerTime (mkGlobals 10 true 50 0))
    by (vm_compute; discriminate).
  destruct (sensitivity_is_strict_threshold (mkGlobals 10 false 50 0) 60 5000 Hclosed)
    as (Hequal & _ & _).
  destruct (sensitivity_is_strict_threshold (mkGlobals 10 false 50 0) 61 5000 Hclosed)
    as (_ & Hrise & _).
  destruct (sensitivity_is_strict_threshold (mkGlobals 10 true 50 0) 39 5000 Hopen)
    as (_ & _ & Hdrop).
  split; [| split].
  - apply Hequal. reflexivity.
  - apply Hrise; reflexivity.
  - apply Hdrop; reflexivity.
Defined.

(** ** Streams of samples *)

Lemma run_cons (g : Globals) (i : Input) (rest : list Input) :
  run g (i :: rest)
  = (fst (step g i) ++ fst (run (snd (step g i)) rest),
     snd (run (snd (step g i)) rest)).
Proof.
  cbn [run]. destruct (step g i) as [p g1]. cbn [fst snd].
  destruct (run g1 rest). reflexivity.
Qed.

Lemma reachable_initial : reachable initialGlobals.
Proof. exists []. reflexivity. Qed.

Lemma reachable_step (g : Globals) (i : Input) :
  reachable g -> reachable (snd (step g i)).
Proof.
  intros [inputs <-]. exists (inputs ++ [i]).
  generalize initialGlobals. induction inputs as [| j more IH]; intros g0.
  - cbn [app]. rewrite run_cons. reflexivity.
  - cbn [app]. rewrite !run_cons. cbn [snd]. apply IH.
Qed.

(** A sample equal to the baseline is silent when the sensitivity is not
    negative, and keeps the baseline where it is. *)
Lemma detect_steady (g : Globals) (c now : Z) :
  previousLightLevel g = c -> 0 <= sensitivity g ->
  played g c now = []
  /\ previousLightLevel (after g c now) = c
  /\ sensitivity (after g c now) = sensitivity g.
Proof.
  intros Hbase Hsens.
  by_outcome g c now; solve [repeat split; assumption | lia].
Qed.

(** C5 as stated does not hold.  The page is reachable in its initial state,
    where the baseline is 0; a stream of samples all equal to 100 has delta
    100 on its first sample, and the chest opens.  A second way: after the
    slider handler has stored a negative sensitivity, a stream equal to the
    baseline (delta 0) opens the chest as well. *)
Lemma constant_stream_can_emit :
  reachable initialGlobals
  /\ fst (run initialGlobals (constantSamples 100 [5000; 5200; 5400]))
     = [OpenedEvent]
  /\ reachable (sensitivityInput (-1) initialGlobals)
  /\ previousLightLevel (sensitivityInput (-1) initialGlobals) = 0
  /\ fst (run (sensitivityInput (-1) initialGlobals) (constantSamples 0 [5000]))
     = [OpenedEvent].
Proof.
  split; [apply reachable_initial |].
  split; [reflexivity |].
  split; [apply (reachable_step initialGlobals (Slider (-1))), reachable_initial |].
  split; reflexivity.
Qed.

(** C5, amended.  From any state whose baseline already equals the constant
    value and whose sensitivity is not negative, observing a stream of
    samples of that value plays no event at any step (the delta is 0
    throughout), whatever the times of the samples; the baseline is still
    the constant afterwards. *)
Theorem constant_stream_is_silent (g : Globals) (c : Z) (times : list Z) :
  previousLightLevel g = c -> 0 <= sensitivity g ->
  fst (run g (constantSamples c times)) = []
  /\ previousLightLevel (snd (run g (constantSamples c times))) = c.
Proof.
  revert g. induction times as [| t later IH]; intros g Hbase Hsens.
  - split; [reflexivity | exact Hbase].
  - unfold constantSamples. cbn [map]. rewrite run_cons. cbn [step fst snd].
    destruct (detect_steady g c t Hbase Hsens) as (Hnone & Hbase' & Hsens').
    unfold played, after in *. rewrite Hnone. cbn [app].
    apply IH; [exact Hbase' | rewrite Hsens'; exact Hsens].
Qed.

Lemma constant_stream_is_silent_witness :
  fst (run (mkGlobals 10 false 100 0) (constantSamples 100 [5000; 5200; 5400])) = []
  /\ previousLightLevel
       (snd (run (mkGlobals 10 false 100 0) (constantSamples 100 [5000; 5200; 5400])))
     = 100.
Proof.
  apply (constant_stream_is_silent (mkGlobals 10 false 100 0) 100 [5000; 5200; 5400]).
  - reflexivity.
  - vm_compute. discriminate.
Defined.

(** ** Alternation *)

(** What a callback run can do to [isChestOpen], and the event that goes
    with it. *)
Lemma step_flips (g : Globals) (i : Input) :
  (fst (step g i) = [] /\ isChestOpen (snd (step g i)) = isChestOpen g)
  \/ (fst (step g i) = [OpenedEvent]
      /\ isChestOpen g = false /\ isChestOpen (snd (step g i)) = true)
  \/ (fst (step g i) = [ClosedEvent]
      /\ isChestOpen g = true /\ isChestOpen (snd (step g i)) = false).
Proof.
  destruct i as [b t | v | | b t]; cbn [step].
  - destruct (detect_outcome g b t); cbn [fst snd]; auto.
  - left. split; reflexivity.
  - left. split; reflexivity.
  - unfold firstReading.
    destruct (detect_outcome g b t); cbn [fst snd]; auto.
Qed.

Lemma run_alternates (inputs : list Input) :
  forall g, alternates (isChestOpen g) (fst (run g inputs)) = true.
Proof.
  induction inputs as [| i rest IH]; intros g.
  - reflexivity.
  - rewrite run_cons. cbn [fst].
    destruct (step_flips g i) as [(Hev & Hopen) | [(Hev & Hold & Hnew) | (Hev & Hold & Hnew)]];
      rewrite Hev; cbn [app alternates];
      specialize (IH (snd (step g i))).
    + rewrite Hopen in IH. exact IH.
    + rewrite Hold. rewrite Hnew in IH. exact IH.
    + rewrite Hold. rewrite Hnew in IH. exact IH.
Qed.

Lemma alternates_head (evs : list Event) :
  alternates false evs = true ->
  hd_error evs = None \/ hd_error evs = Some OpenedEvent.
Proof.
  destruct evs as [| [|] rest]; cbn; intros H; auto. discriminate.
Qed.

Lemma alternates_neighbours (evs : list Event) :
  forall isOpen (n : nat) (e1 e2 : Event),
    alternates isOpen evs = true ->
    nth_error evs n = Some e1 -> nth_error evs (S n) = Some e2 -> e1 <> e2.
Proof.
  induction evs as [| e rest IH]; intros isOpen n e1 e2 Halt H1 H2.
  - destruct n; discriminate.
  - destruct n as [| n].
    + cbn in H1. injection H1 as <-. cbn in H2.
      destruct rest as [| e' rest']; [discriminate |].
      cbn in H2. injection H2 as <-.
      destruct e, e', isOpen; cbn in Halt; congruence.
    + cbn in H1, H2.
      destruct e; cbn in Halt; apply andb_prop in Halt as [_ Hrest];
        eapply IH; eassumption.
Qed.

(** C10.  From any state with [isChestOpen = false], the initial one
    included, the events played over any sequence of callback runs
    alternate: the first event, if there is one, is [OpenedEvent], and two
    consecutive events are never of the same kind.  A call plays
    [OpenedEvent] only when [isChestOpen] is false and [ClosedEvent] only
    when it is true. *)
Theorem events_alternate (g : Globals) (inputs : list Input) :
  isChestOpen g = false ->
  alternates false (fst (run g inputs)) = true
  /\ (hd_error (fst (run g inputs)) = None
      \/ hd_error (fst (run g inputs)) = Some OpenedEvent)
  /\ (forall (n : nat) (e1 e2 : Event),
        nth_error (fst (run g inputs)) n = Some e1 ->
        nth_error (fst (run g inputs)) (S n) = Some e2 -> e1 <> e2)
  /\ (forall g' sample now,
        (In OpenedEvent (played g' sample now) -> isChestOpen g' = false)
        /\ (In ClosedEvent (played g' sample now) -> isChestOpen g' = true)).
Proof.
  intros Hclosed.
  pose proof (run_alternates inputs g) as Halt. rewrite Hclosed in Halt.
  split; [exact Halt |].
  split; [apply alternates_head; exact Halt |].
  split; [intros n e1 e2; apply (alternates_neighbours _ false); exact Halt |].
  intros g' sample now.
  by_outcome g' sample now; split; intros Hin; cbn in Hin;
    solve [ contradiction | assumption
          | destruct Hin as [Hin | []]; discriminate ].
Qed.

Lemma events_alternate_witness :
  isChestOpen initialGlobals = false
  /\ alternates false
       (fst (run initialGlobals
          [Start; FirstReading 40 5000; Sample 90 7100; Slider 25;
           Sample 20 7300; Sample 20 9200; Sample 130 11300])) = true.
Proof.
  split; [reflexivity |].
  apply (events_alternate initialGlobals
          [Start; FirstReading 40 5000; Sample 90 7100; Slider 25;
           Sample 20 7300; Sample 20 9200; Sample 130 11300]).
  reflexivity.
Defined.

(** ** Around the detector *)

(** The sample computed from a pixel is a brightness between 0 and 255. *)
Lemma brightnessOf_range (r g b : Z) :
  0 <= r <= 255 -> 0 <= g <= 255 -> 0 <= b <= 255 ->
  0 <= brightnessOf r g b <= 255.
Proof.
  intros Hr Hg Hb. unfold brightnessOf. split.
  - apply Z.div_pos; lia.
  - apply Z.lt_succ_r. apply Z.div_lt_upper_bound; lia.
Qed.

Example brightnessOf_rounds :
  brightnessOf 0 0 1 = 0 /\ brightnessOf 0 1 1 = 1 /\ brightnessOf 255 255 254 = 255.
Proof. repeat split. Qed.

(** The stabilising timeout overwrites the baseline after its call of the
    detector, also when that call has just played an event. *)
Lemma firstReading_rebases (g : Globals) (brightness currentTime : Z) :
  previousLightLevel (snd (firstReading g brightness currentTime)) = brightness
  /\ fst (firstReading g brightness currentTime) = played g brightness currentTime.
Proof.
  unfold firstReading, played.
  destruct (detectLightLevel g brightness currentTime). split; reflexivity.
Qed.

Example start_in_a_lit_room :
  run initialGlobals [Start; FirstReading 100 5000]
  = ([OpenedEvent], mkGlobals 10 true 100 5000).
Proof. reflexivity. Qed.

(** X10.  Outside the cooldown window the first version of the detector
    plays the same event and leaves [isChestOpen] the same as the current
    one: the two versions differ only by the lockout and by the baseline the
    lockout freezes. *)
Lemma legacy_agrees_outside_cooldown (g : Globals) (brightness currentTime : Z) :
  triggerCooldown <= currentTime - lastTriggerTime g ->
  fst (Legacy.detectLightLevel (legacyView g) brightness)
  = played g brightness currentTime
  /\ Legacy.isChestOpen (snd (Legacy.detectLightLevel (legacyView g) brightness))
     = isChestOpen (after g brightness currentTime).
Proof.
  intros Hout. unfold played, after, detectLightLevel, Legacy.detectLightLevel.
  destruct (Z.ltb_spec (currentTime - lastTriggerTime g) triggerCooldown); [lia |].
  cbn [legacyView Legacy.previousLightLevel Legacy.sensitivity Legacy.isChestOpen].
  destruct ((brightness - previousLightLevel g >? sensitivity g) && negb (isChestOpen g)).
  - cbn [fst snd Legacy.isChestOpen].
    rewrite rebase_after_trigger by reflexivity. split; reflexivity.
  - destruct ((brightness - previousLightLevel g <? - sensitivity g) && isChestOpen g).
    + cbn [fst snd Legacy.isChestOpen].
      rewrite rebase_after_trigger by reflexivity. split; reflexivity.
    + cbn [fst snd Legacy.isChestOpen].
      rewrite rebase_when_elapsed by assumption. split; reflexivity.
Qed.

(** The first version has no lockout: a rise and a drop on two successive
    ticks play both sounds, which the current version does not. *)
Example legacy_has_no_lockout :
  fst (Legacy.detectLightLevel (Legacy.mkGlobals 50 10 false) 70) = [OpenedEvent]
  /\ fst (Legacy.detectLightLevel
            (snd (Legacy.detectLightLevel (Legacy.mkGlobals 50 10 false) 70)) 20)
     = [ClosedEvent]
  /\ fst (run (mkGlobals 10 false 50 0) [Sample 70 5000; Sample 20 5200])
     = [OpenedEvent].
Proof. repeat split. Qed.

Example alternation_trace :
  fst (run initialGlobals
         [Start; FirstReading 40 5000; Sample 90 7100; Slider 25;
          Sample 20 7300; Sample 20 9200; Sample 130 11300])
  = [OpenedEvent; ClosedEvent; OpenedEvent].
Proof. reflexivity. Qed.

(** ** Whole runs *)

Lemma run_app (first rest : list Input) :
  forall g,
    run g (first ++ rest)
    = (fst (run g first) ++ fst (run (snd (run g first)) rest),
       snd (run (snd (run g first)) rest)).
Proof.
  induction first as [| i more IH]; intros g.
  - cbn [app run fst snd]. destruct (run g rest). reflexivity.
  - cbn [app]. rewrite !run_cons, IH. cbn [fst snd].
    rewrite app_assoc. reflexivity.
Qed.

(** A callback run either plays nothing and, unless it is the start
    handler, leaves the trigger time alone, or it plays a sound at a time at
    least [triggerCooldown] after the trigger time and stamps that time. *)
Lemma step_stamps (g : Globals) (i : Input) :
  (fst (step g i) = []
   /\ (isStart i = false ->
       lastTriggerTime (snd (step g i)) = lastTriggerTime g))
  \/ (exists e t, fst (step g i) = [e] /\ inputTime i = Some t
      /\ triggerCooldown <= t - lastTriggerTime g
      /\ lastTriggerTime (snd (step g i)) = t).
Proof.
  destruct i as [b t | v | | b t]; cbn [step isStart inputTime].
  - destruct (detect_outcome g b t); cbn [fst snd];
      solve [ left; split; [reflexivity | intros _; reflexivity]
            | right; eexists; exists t; repeat split; assumption ].
  - left. split; [reflexivity | intros _; reflexivity].
  - left. split; [reflexivity | discriminate].
  - unfold firstReading.
    destruct (detect_outcome g b t); cbn [fst snd];
      solve [ left; split; [reflexivity | intros _; reflexivity]
            | right; eexists; exists t; repeat split; assumption ].
Qed.

Lemma spacedFrom_neighbours (times : list Z) :
  forall last (n : nat) (t1 t2 : Z),
    spacedFrom last times ->
    nth_error times n = Some t1 -> nth_error times (S n) = Some t2 ->
    triggerCooldown <= t2 - t1.
Proof.
  induction times as [| t rest IH]; intros last n t1 t2 Hsp H1 H2.
  - destruct n; discriminate.
  - destruct Hsp as [_ Hrest]. destruct n as [| n].
    + cbn in H1. injection H1 as <-.
      destruct rest as [| t' rest']; [discriminate |].
      cbn in H2. injection H2 as <-. exact (proj1 Hrest).
    + cbn in H1, H2. eapply IH; eassumption.
Qed.

(** X1.  As long as the camera is not restarted, two sounds are never less
    than [triggerCooldown] (2000 ms) apart: each callback run that plays a
    sound does so at a time at least 2000 ms after the previous one that
    did, and after the trigger time the run started with. *)
Theorem sounds_are_spaced (g : Globals) (inputs : list Input) :
  existsb isStart inputs = false ->
  spacedFrom (lastTriggerTime g) (triggerTimes g inputs)
  /\ (forall (n : nat) (t1 t2 : Z),
        nth_error (triggerTimes g inputs) n = Some t1 ->
        nth_error (triggerTimes g inputs) (S n) = Some t2 ->
        2000 <= t2 - t1).
Proof.
  intros Hnostart.
  assert (Hsp : spacedFrom (lastTriggerTime g) (triggerTimes g inputs)).
  { revert g. induction inputs as [| i rest IH]; intros g; [exact I |].
    cbn [existsb] in Hnostart. apply orb_false_elim in Hnostart as [Hi Hrest].
    cbn [triggerTimes].
    destruct (step_stamps g i) as [(Hev & Hlast) | (e & t & Hev & Htime & Hcd & Hlast)].
    - rewrite Hev. rewrite <- (Hlast Hi). apply IH. exact Hrest.
    - rewrite Hev, Htime. cbn [spacedFrom]. split; [exact Hcd |].
      rewrite <- Hlast. apply IH. exact Hrest. }
  split; [exact Hsp |].
  intros n t1 t2 H1 H2.
  change 2000 with triggerCooldown.
  exact (spacedFrom_neighbours _ _ n t1 t2 Hsp H1 H2).
Qed.

Lemma sounds_are_spaced_witness :
  triggerTimes initialGlobals
    [Sample 90 5000; Sample 20 5200; Slider 30; Sample 90 7100;
     Sample 20 7300; Sample 200 9300]
  = [5000; 7300; 9300]
  /\ spacedFrom 0 [5000; 7300; 9300].
Proof.
  split; [reflexivity |].
  apply (sounds_are_spaced initialGlobals
           [Sample 90 5000; Sample 20 5200; Slider 30; Sample 90 7100;
     Sample 20 7300; Sample 200 9300]).
  reflexivity.
Defined.

(** X2.  After any sequence of callback runs [isChestOpen] says what the
    last sound played was: true after the open sound, false after the close
    sound, and its old value when nothing was played.  Restarting the camera
    does not reset it. *)
Theorem flag_tracks_last_event (inputs : list Input) :
  forall g,
    isChestOpen (snd (run g inputs))
    = flagAfter (isChestOpen g) (fst (run g inputs)).
Proof.
  induction inputs as [| i rest IH]; intros g; [reflexivity |].
  rewrite run_cons. cbn [fst snd]. unfold flagAfter in *.
  rewrite fold_left_app, IH.
  destruct (step_flips g i) as [(Hev & Hopen) | [(Hev & _ & Hnew) | (Hev & _ & Hnew)]];
    rewrite Hev; cbn [fold_left]; congruence.
Qed.

(** X3.  The detector never writes [sensitivity]: after any sequence of
    callback runs it holds the value the slider was last moved to, or the
    value it had when the slider was not moved. *)
Theorem sensitivity_is_the_slider (inputs : list Input) :
  forall g,
    sensitivity (snd (run g inputs)) = sensitivityAfter (sensitivity g) inputs.
Proof.
  induction inputs as [| i rest IH]; intros g; [reflexivity |].
  rewrite run_cons. cbn [snd]. rewrite IH. unfold sensitivityAfter.
  cbn [fold_left]. f_equal.
  destruct i as [b t | v | | b t]; cbn [step].
  - destruct (detect_outcome g b t); reflexivity.
  - reflexivity.
  - reflexivity.
  - unfold firstReading. destruct (detect_outcome g b t); reflexivity.
Qed.

(** ** Steady light *)

(** A sample that does not call for a transition in the state the detector
    is in stays without effect on the flag, also on later calls. *)
Lemma settled_step (g : Globals) (c now : Z) :
  0 <= sensitivity g ->
  (isChestOpen g = true -> - sensitivity g <= c - previousLightLevel g) ->
  (isChestOpen g = false -> c - previousLightLevel g <= sensitivity g) ->
  played g c now = []
  /\ sensitivity (after g c now) = sensitivity g
  /\ isChestOpen (after g c now) = isChestOpen g
  /\ (previousLightLevel (after g c now) = previousLightLevel g
      \/ previousLightLevel (after g c now) = c).
Proof.
  intros Hsens Hopen Hclosed.
  by_outcome g c now.
  - repeat split. left. reflexivity.
  - pose proof (Hclosed ltac:(assumption)). lia.
  - pose proof (Hopen ltac:(assumption)). lia.
  - repeat split. right. reflexivity.
Qed.

Lemma settled_run (c : Z) (times : list Z) :
  forall g,
    0 <= sensitivity g ->
    (isChestOpen g = true -> - sensitivity g <= c - previousLightLevel g) ->
    (isChestOpen g = false -> c - previousLightLevel g <= sensitivity g) ->
    fst (run g (constantSamples c times)) = []
    /\ isChestOpen (snd (run g (constantSamples c times))) = isChestOpen g.
Proof.
  induction times as [| t later IH]; intros g Hsens Hopen Hclosed.
  - split; reflexivity.
  - unfold constantSamples. cbn [map]. rewrite run_cons. cbn [step fst snd].
    destruct (settled_step g c t Hsens Hopen Hclosed)
      as (Hnone & Hsens' & Hflag & Hbase).
    unfold played, after in *. rewrite Hnone. cbn [app].
    rewrite <- Hflag. apply IH.
    + rewrite Hsens'. exact Hsens.
    + rewrite Hsens', Hflag. intros Ho. specialize (Hopen Ho).
      destruct Hbase as [-> | ->]; lia.
    + rewrite Hsens', Hflag. intros Ho. specialize (Hclosed Ho).
      destruct Hbase as [-> | ->]; lia.
Qed.

(** X4.  With a sensitivity that is not negative, a light level that does
    not change plays at most one sound, from whatever state the detector is
    in and whenever the samples are taken. *)
Theorem constant_stream_at_most_one (c : Z) (times : list Z) :
  forall g,
    0 <= sensitivity g ->
    (length (fst (run g (constantSamples c times))) <= 1)%nat.
Proof.
  induction times as [| t later IH]; intros g Hsens.
  - cbn. lia.
  - unfold constantSamples. cbn [map]. fold (constantSamples c later).
    rewrite run_cons. cbn [step].
    pose proof (settled_run c later) as Hsettled.
    destruct (detect_outcome g c t); cbn [fst snd app].
    + apply IH. exact Hsens.
    + destruct (Hsettled (set_lastTriggerTime t (set_isChestOpen true g)))
        as [-> _]; cbn; try lia; intros; try discriminate; lia.
    + destruct (Hsettled (set_lastTriggerTime t (set_isChestOpen false g)))
        as [-> _]; cbn; try lia; intros; try discriminate; lia.
    + destruct (Hsettled (set_previousLightLevel c g))
        as [-> _]; cbn; try lia; intros; lia.
Qed.

Lemma constant_stream_at_most_one_witness :
  (length (fst (run initialGlobals
                  (constantSamples 100 [5000; 6000; 7500; 9000]%Z))) <= 1)%nat.
Proof.
  apply (constant_stream_at_most_one 100 [5000; 6000; 7500; 9000] initialGlobals).
  vm_compute. discriminate.
Defined.

(** X5.  Timer ticks that fall inside the cooldown window leave no trace:
    a run that starts with such ticks plays the same sounds and ends in the
    same state as the run without them. *)
Theorem ticks_inside_window_leave_no_trace (g : Globals) (burst rest : list Input) :
  forallb (insideWindow g) burst = true ->
  run g (burst ++ rest) = run g rest.
Proof.
  intros Hburst. induction burst as [| i more IH]; [reflexivity |].
  cbn [forallb] in Hburst. apply andb_prop in Hburst as [Hi Hmore].
  cbn [app]. rewrite run_cons.
  destruct i as [b t | v | | b t]; try discriminate.
  cbn [insideWindow] in Hi. apply Z.ltb_lt in Hi.
  cbn [step]. rewrite (detect_locked g b t Hi). cbn [fst snd app].
  rewrite (IH Hmore). destruct (run g rest). reflexivity.
Qed.

Lemma ticks_inside_window_leave_no_trace_witness :
  run (mkGlobals 10 true 50 5000)
    ([Sample 0 5200; Sample 255 5400; Sample 0 6999] ++ [Sample 20 7000])
  = run (mkGlobals 10 true 50 5000) [Sample 20 7000].
Proof.
  apply (ticks_inside_window_leave_no_trace (mkGlobals 10 true 50 5000)
           [Sample 0 5200; Sample 255 5400; Sample 0 6999] [Sample 20 7000]).
  reflexivity.
Defined.

(** X6.  The baseline is not moved by the call that opens the chest, so a
    flash is never closed again: when a rise opens the chest and the light
    then goes back to the level it had, no close sound follows, however long
    the light stays there, and [isChestOpen] stays true. *)
Theorem flash_is_never_closed (g : Globals) (c t0 : Z) (times : list Z) :
  isChestOpen g = false ->
  triggerCooldown <= t0 - lastTriggerTime g ->
  c - previousLightLevel g > sensitivity g ->
  0 <= sensitivity g ->
  fst (run g (Sample c t0 :: constantSamples (previousLightLevel g) times))
  = [OpenedEvent]
  /\ isChestOpen
       (snd (run g (Sample c t0 :: constantSamples (previousLightLevel g) times)))
     = true.
Proof.
  intros Hclosed Hout Hrise Hsens.
  rewrite run_cons. cbn [step].
  rewrite (detect_opens g c t0 Hout Hrise Hclosed). cbn [fst snd].
  destruct (settled_run (previousLightLevel g) times
              (set_lastTriggerTime t0 (set_isChestOpen true g)))
    as [Hnone Hflag]; cbn; try lia; intros; try lia.
  rewrite Hnone, Hflag. split; reflexivity.
Qed.

Lemma flash_is_never_closed_witness :
  fst (run (mkGlobals 10 false 50 0)
         (Sample 200 5000 :: constantSamples 50 [5200; 5400; 7000; 7200; 9500]))
  = [OpenedEvent].
Proof.
  apply (flash_is_never_closed (mkGlobals 10 false 50 0) 200 5000
           [5200; 5400; 7000; 7200; 9500]);
    vm_compute; (reflexivity || discriminate).
Defined.

(** ** Starting the camera *)

(** X7.  The start handler resets the baseline to 0 and the trigger time to
    0, so the first reading is compared with darkness: at any time of the
    clock from 2000 on, it plays the open sound as soon as the brightness
    exceeds the sensitivity and the chest is flagged closed, and nothing
    otherwise (never the close sound); in both cases the brightness read
    becomes the baseline. *)
Theorem first_reading_after_start (g : Globals) (b t : Z) :
  triggerCooldown <= t -> 0 <= b -> 0 <= sensitivity g ->
  run g [Start; FirstReading b t]
  = if (sensitivity g <? b) && negb (isChestOpen g)
    then ([OpenedEvent], mkGlobals (sensitivity g) true b t)
    else ([], mkGlobals (sensitivity g) (isChestOpen g) b 0).
Proof.
  intros Ht Hb Hsens. cbn [run step]. unfold firstReading.
  destruct (detect_outcome (resetOnStart g) b t) as [Hin | Hout Hup Hopen | Hout Hdn Hopen | Hout Hup Hdn];
    unfold resetOnStart, set_lastTriggerTime, set_previousLightLevel,
      set_isChestOpen in *;
    cbn [lastTriggerTime previousLightLevel sensitivity isChestOpen app] in *.
  - lia.
  - rewrite Hopen. destruct (Z.ltb_spec (sensitivity g) b); [reflexivity | lia].
  - lia.
  - destruct (isChestOpen g) eqn:Hflag.
    + rewrite andb_false_r. reflexivity.
    + specialize (Hup eq_refl).
      destruct (Z.ltb_spec (sensitivity g) b); [lia | reflexivity].
Qed.

Lemma first_reading_after_start_witness :
  run (mkGlobals 10 false 180 1700000000000) [Start; FirstReading 120 1700000060000]
  = ([OpenedEvent], mkGlobals 10 true 120 1700000060000).
Proof.
  apply (first_reading_after_start (mkGlobals 10 false 180 1700000000000)
           120 1700000060000); vm_compute; discriminate.
Defined.

(** ** Samples of a pixel *)

Lemma inRange_spec (b : Z) : inRange b = true <-> 0 <= b <= 255.
Proof.
  unfold inRange. rewrite andb_true_iff, !Z.leb_le. reflexivity.
Qed.

(** X8.  The brightness computed from a pixel is the mean of its three
    channels rounded to the nearest integer: it lies between 0 and 255, three
    times it differs from the sum of the channels by at most 1, and a grey
    pixel gives its own level. *)
Theorem brightness_is_rounded_mean (r g b : Z) :
  0 <= r <= 255 -> 0 <= g <= 255 -> 0 <= b <= 255 ->
  0 <= brightnessOf r g b <= 255
  /\ Z.abs (3 * brightnessOf r g b - (r + g + b)) <= 1
  /\ (r = g -> g = b -> brightnessOf r g b = r).
Proof.
  intros Hr Hg Hb. unfold brightnessOf.
  pose proof (Z.div_mod (2 * (r + g + b) + 3) 6 ltac:(lia)) as Hdiv.
  pose proof (Z.mod_pos_bound (2 * (r + g + b) + 3) 6 ltac:(lia)) as Hmod.
  repeat split; lia.
Qed.

Lemma brightness_is_rounded_mean_witness :
  0 <= brightnessOf 200 10 30 <= 255
  /\ Z.abs (3 * brightnessOf 200 10 30 - (200 + 10 + 30)) <= 1.
Proof.
  destruct (brightness_is_rounded_mean 200 10 30) as (Hrange & Hnear & _);
    try (split; vm_compute; discriminate).
  split; [exact Hrange | exact Hnear].
Defined.

(** X9.  Brightness values never leave the range of a pixel, so a
    sensitivity of 255 or more switches the detector off: with the baseline
    and every sample between 0 and 255 and the slider never below 255, no
    sequence of callback runs plays a sound, and the baseline stays in
    range. *)
Theorem saturated_sensitivity_is_silent (inputs : list Input) :
  forall g,
    inRange (previousLightLevel g) = true ->
    255 <= sensitivity g ->
    forallb sampleInRange inputs = true ->
    forallb (sliderAtLeast 255) inputs = true ->
    fst (run g inputs) = []
    /\ inRange (previousLightLevel (snd (run g inputs))) = true.
Proof.
  induction inputs as [| i rest IH]; intros g Hbase Hsens Hsamples Hslider.
  - split; [reflexivity | exact Hbase].
  - cbn [forallb] in Hsamples, Hslider.
    apply andb_prop in Hsamples as [Hi Hrest].
    apply andb_prop in Hslider as [Hv Hlater].
    rewrite run_cons. cbn [fst snd].
    assert (Hstep : fst (step g i) = []
                    /\ inRange (previousLightLevel (snd (step g i))) = true
                    /\ 255 <= sensitivity (snd (step g i))).
    { apply inRange_spec in Hbase.
      destruct i as [b t | v | | b t]; cbn [step sampleInRange sliderAtLeast] in *.
      - apply inRange_spec in Hi.
        destruct (detect_outcome g b t); cbn [fst snd]; try lia;
          repeat split; try assumption; apply inRange_spec; cbn; lia.
      - apply Z.leb_le in Hv.
        repeat split; try assumption; apply inRange_spec; cbn; lia.
      - repeat split; assumption.
      - apply inRange_spec in Hi. unfold firstReading.
        destruct (detect_outcome g b t); cbn [fst snd]; try lia;
          repeat split; try assumption; apply inRange_spec; cbn; lia. }
    destruct Hstep as (Hnone & Hbase' & Hsens').
    rewrite Hnone. cbn [app]. apply IH; assumption.
Qed.

Lemma saturated_sensitivity_is_silent_witness :
  fst (run (mkGlobals 255 false 0 0)
         [Sample 255 5000; Sample 0 7000; Slider 300; Start;
          FirstReading 255 9000; Sample 0 11000]) = [].
Proof.
  apply (saturated_sensitivity_is_silent
           [Sample 255 5000; Sample 0 7000; Slider 300; Start;
            FirstReading 255 9000; Sample 0 11000] (mkGlobals 255 false 0 0));
    (reflexivity || (vm_compute; discriminate)).
Defined.

(** ** The first version over a stream *)

Lemma legacy_agrees_outside_cooldown_witness :
  fst (Legacy.detectLightLevel (legacyView (mkGlobals 10 false 50 0)) 70)
  = played (mkGlobals 10 false 50 0) 70 5000.
Proof.
  apply (legacy_agrees_outside_cooldown (mkGlobals 10 false 50 0) 70 5000).
  vm_compute. discriminate.
Defined.

Lemma legacy_step_flips (g : Legacy.Globals) (b : Z) :
  (fst (Legacy.detectLightLevel g b) = []
   /\ Legacy.isChestOpen (snd (Legacy.detectLightLevel g b)) = Legacy.isChestOpen g)
  \/ (fst (Legacy.detectLightLevel g b) = [OpenedEvent]
      /\ Legacy.isChestOpen g = false
      /\ Legacy.isChestOpen (snd (Legacy.detectLightLevel g b)) = true)
  \/ (fst (Legacy.detectLightLevel g b) = [ClosedEvent]
      /\ Legacy.isChestOpen g = true
      /\ Legacy.isChestOpen (snd (Legacy.detectLightLevel g b)) = false).
Proof.
  unfold Legacy.detectLightLevel.
  destruct (b - Legacy.previousLightLevel g >? Legacy.sensitivity g);
    destruct (b - Legacy.previousLightLevel g <? - Legacy.sensitivity g);
    destruct (Legacy.isChestOpen g); cbn; auto.
Qed.

Lemma legacyRun_cons (g : Legacy.Globals) (b : Z) (rest : list Z) :
  legacyRun g (b :: rest)
  = (fst (Legacy.detectLightLevel g b)
       ++ fst (legacyRun (snd (Legacy.detectLightLevel g b)) rest),
     snd (legacyRun (snd (Legacy.detectLightLevel g b)) rest)).
Proof.
  cbn [legacyRun]. destruct (Legacy.detectLightLevel g b) as [p g1].
  cbn [fst snd]. destruct (legacyRun g1 rest). reflexivity.
Qed.

(** X11.  The first version of the detector already alternates: over any
    stream of samples the sounds it plays start with the one its flag allows
    (open when closed, close when open) and never repeat. *)
Theorem legacy_events_alternate (samples : list Z) :
  forall g,
    alternates (Legacy.isChestOpen g) (fst (legacyRun g samples)) = true.
Proof.
  induction samples as [| b rest IH]; intros g; [reflexivity |].
  rewrite legacyRun_cons. cbn [fst].
  specialize (IH (snd (Legacy.detectLightLevel g b))).
  destruct (legacy_step_flips g b)
    as [(Hev & Hopen) | [(Hev & Hold & Hnew) | (Hev & Hold & Hnew)]];
    rewrite Hev; cbn [app alternates].
  - rewrite Hopen in IH. exact IH.
  - rewrite Hold. rewrite Hnew in IH. exact IH.
  - rewrite Hold. rewrite Hnew in IH. exact IH.
Qed.

(** X12.  The first version rebases on every call, so under a light level
    that does not change only the first sample can play a sound (the
    sensitivity being not negative): the sounds of the whole stream are
    those of its first sample. *)
Theorem legacy_steady_light (g : Legacy.Globals) (c : Z) (n : nat) :
  0 <= Legacy.sensitivity g ->
  fst (legacyRun g (c :: repeat c n)) = fst (Legacy.detectLightLevel g c).
Proof.
  intros Hsens. rewrite legacyRun_cons. cbn [fst].
  assert (Hquiet : forall g', Legacy.previousLightLevel g' = c ->
                              0 <= Legacy.sensitivity g' ->
                              fst (legacyRun g' (repeat c n)) = []).
  { clear. induction n as [| n IH]; intros g' Hbase Hs; [reflexivity |].
    cbn [repeat]. rewrite legacyRun_cons. cbn [fst].
    assert (Hstep : Legacy.detectLightLevel g' c
                    = ([], Legacy.mkGlobals c (Legacy.sensitivity g')
                             (Legacy.isChestOpen g'))).
    { unfold Legacy.detectLightLevel. rewrite Hbase, Z.sub_diag.
      destruct (Z.gtb_spec 0 (Legacy.sensitivity g')); [lia |].
      destruct (Z.ltb_spec 0 (- Legacy.sensitivity g')); [lia |].
      reflexivity. }
    rewrite Hstep. cbn [fst snd app]. apply IH; [reflexivity | exact Hs]. }
  rewrite Hquiet.
  - apply app_nil_r.
  - unfold Legacy.detectLightLevel.
    destruct ((c - Legacy.previousLightLevel g >? Legacy.sensitivity g)
              && negb (Legacy.isChestOpen g));
      [reflexivity |].
    destruct ((c - Legacy.previousLightLevel g <? - Legacy.sensitivity g)
              && Legacy.isChestOpen g); reflexivity.
  - unfold Legacy.detectLightLevel.
    destruct ((c - Legacy.previousLightLevel g >? Legacy.sensitivity g)
              && negb (Legacy.isChestOpen g));
      [exact Hsens |].
    destruct ((c - Legacy.previousLightLevel g <? - Legacy.sensitivity g)
              && Legacy.isChestOpen g); exact Hsens.
Qed.

Lemma legacy_steady_light_witness :
  fst (legacyRun (Legacy.mkGlobals 0 10 false) (100 :: repeat 100 5))
  = [OpenedEvent].
Proof.
  apply (legacy_steady_light (Legacy.mkGlobals 0 10 false) 100 5).
  vm_compute. discriminate.
Defined.

(** ** Camera constraints *)

Lemma keys_of_manualSettings {num : Type} (mid : num -> num -> num)
  (c : Capabilities.t num) :
  (0 <? keys (manualSettings mid c))%nat
  = includes (Capabilities.focusMode c) "manual"
    || includes (Capabilities.exposureMode c) "manual"
    || includes (Capabilities.whiteBalanceMode c) "manual".
Proof.
  unfold keys, manualSettings. cbn [Settings.focusMode Settings.focusDistance
    Settings.exposureMode Settings.exposureTime Settings.whiteBalanceMode].
  destruct (includes (Capabilities.focusMode c) "manual");
    destruct (includes (Capabilities.exposureMode c) "manual");
    destruct (includes (Capabilities.whiteBalanceMode c) "manual");
    destruct (Capabilities.focusDistance c);
    destruct (Capabilities.exposureTime c); reflexivity.
Qed.

(** X13.  [applyAdvancedCameraConstraints] asks the track for constraints
    exactly when one of focus, exposure and white balance offers the mode
    'manual', and reports that the camera has no manual controls exactly
    when none does.  What it asks for is bound to what the track offers: a
    focus distance only together with manual focus, and then the largest
    distance of the range; an exposure time only together with manual
    exposure, and then the middle of the range. *)
Theorem constraints_follow_capabilities {num : Type} (mid : num -> num -> num)
  (c : Capabilities.t num) (applyConstraints : Settings.t num -> bool) :
  (applyAdvancedCameraConstraints mid (Some c) applyConstraints = NotSupported
   <-> includes (Capabilities.focusMode c) "manual" = false
       /\ includes (Capabilities.exposureMode c) "manual" = false
       /\ includes (Capabilities.whiteBalanceMode c) "manual" = false)
  /\ (forall s,
        applyAdvancedCameraConstraints mid (Some c) applyConstraints = Applied s ->
        (forall d, Settings.focusDistance s = Some d ->
           Settings.focusMode s = Some "manual"%string
           /\ includes (Capabilities.focusMode c) "manual" = true
           /\ exists r, Capabilities.focusDistance c = Some r /\ d = rangeMax r)
        /\ (forall e, Settings.exposureTime s = Some e ->
           Settings.exposureMode s = Some "manual"%string
           /\ includes (Capabilities.exposureMode c) "manual" = true
           /\ exists r, Capabilities.exposureTime c = Some r
                        /\ e = mid (rangeMax r) (rangeMin r))).
Proof.
  unfold applyAdvancedCameraConstraints.
  rewrite keys_of_manualSettings.
  split.
  - destruct (includes (Capabilities.focusMode c) "manual");
      destruct (includes (Capabilities.exposureMode c) "manual");
      destruct (includes (Capabilities.whiteBalanceMode c) "manual");
      cbn [orb];
      try (destruct (applyConstraints (manualSettings mid c)));
      split; intros H; try discriminate; try reflexivity;
      try (repeat split; reflexivity);
      destruct H as (H1 & H2 & H3); discriminate.
  - intros s Happlied.
    assert (Hs : s = manualSettings mid c).
    { destruct (includes (Capabilities.focusMode c) "manual"
                || includes (Capabilities.exposureMode c) "manual"
                || includes (Capabilities.whiteBalanceMode c) "manual");
        [| discriminate].
      destruct (applyConstraints (manualSettings mid c)); [| discriminate].
      injection Happlied as <-. reflexivity. }
    subst s. unfold manualSettings.
    cbn [Settings.focusMode Settings.focusDistance
         Settings.exposureMode Settings.exposureTime].
    split.
    + intros d Hd.
      destruct (includes (Capabilities.focusMode c) "manual"); [| discriminate].
      destruct (Capabilities.focusDistance c) as [r |]; [| discriminate].
      cbn in Hd. injection Hd as <-.
      repeat split. exists r. split; reflexivity.
    + intros e He.
      destruct (includes (Capabilities.exposureMode c) "manual"); [| discriminate].
      destruct (Capabilities.exposureTime c) as [r |]; [| discriminate].
      cbn in He. injection He as <-.
      repeat split. exists r. split; reflexivity.
Qed.

Lemma constraints_follow_capabilities_witness :
  applyAdvancedCameraConstraints (fun hi lo => (hi + lo) / 2)
    (Some (Capabilities.mk (Some ["continuous"; "manual"]%string)
             (Some (mkRange 0 40)) (Some ["continuous"]%string)
             (Some (mkRange 1 1000)) None))
    (fun _ => true)
  = Applied (Settings.mk (Some "manual"%string) (Some 40) None None None)
  /\ applyAdvancedCameraConstraints (fun hi lo => (hi + lo) / 2)
       (Some (Capabilities.mk (Some ["continuous"]%string)
                (Some (mkRange 0 40)) None None None))
       (fun _ => true)
     = NotSupported.
Proof.
  split; [reflexivity |].
  apply (constraints_follow_capabilities (fun hi lo => (hi + lo) / 2)
           (Capabilities.mk (Some ["continuous"]%string)
              (Some (mkRange 0 40)) None None None) (fun _ => true)).
  repeat split.
Defined.

(** ** The page-level functions and the detector *)

Lemma page_eta (p : Page) :
  p = mkPage (vars p) (isActive p) (lightLevelText p) (playCalls p).
Proof. destruct p. reflexivity. Qed.

(** The transitions when the sound function completes, or is not called. *)
Lemma transitions_complete (playSound : Event -> JS unit) (brightness t : Z) (p : Page) :
  triggerCooldown <= t - lastTriggerTime (vars p) ->
  played (vars p) brightness t = []
  \/ (forall e q, playSound e q
                  = (Normal tt, mkPage (vars q) (isActive q) (lightLevelText q)
                                  (playCalls q ++ [e]))) ->
  transitions playSound brightness t p
  = (Normal tt,
     mkPage (after (vars p) brightness t) (isActive p) (lightLevelText p)
       (playCalls p ++ played (vars p) brightness t)).
Proof.
  intros Hout Hplay.
  unfold played, after, detectLightLevel in *.
  destruct (Z.ltb_spec (t - lastTriggerTime (vars p)) triggerCooldown); [lia |].
  cbv beta iota zeta delta [transitions bind andThen readVars assign ret].
  destruct ((brightness - previousLightLevel (vars p) >? sensitivity (vars p))
            && negb (isChestOpen (vars p))).
  - destruct Hplay as [Hnone | Hplay]; [discriminate |].
    cbv beta iota delta [bind andThen assign ret]. rewrite Hplay.
    cbn [vars isActive lightLevelText playCalls fst snd].
    rewrite !rebase_after_trigger by reflexivity.
    cbn [set_lastTriggerTime lastTriggerTime]. rewrite Z.sub_diag. reflexivity.
  - destruct ((brightness - previousLightLevel (vars p) <? - sensitivity (vars p))
              && isChestOpen (vars p)).
    + destruct Hplay as [Hnone | Hplay]; [discriminate |].
      cbv beta iota delta [bind andThen assign ret]. rewrite Hplay.
    cbn [vars isActive lightLevelText playCalls fst snd].
      rewrite !rebase_after_trigger by reflexivity.
      cbn [set_lastTriggerTime lastTriggerTime]. rewrite Z.sub_diag. reflexivity.
    + cbv beta iota. cbn [vars isActive lightLevelText playCalls fst snd].
      rewrite app_nil_r.
      destruct (Z.geb_spec (t - lastTriggerTime (vars p)) triggerCooldown);
        [reflexivity | lia].
Qed.

(** The transitions when the sound function is called and throws: the
    assignments that follow the call are not reached. *)
Lemma transitions_throw (playSound : Event -> JS unit) (brightness t : Z) (p : Page) :
  triggerCooldown <= t - lastTriggerTime (vars p) ->
  played (vars p) brightness t <> [] ->
  (forall e q, playSound e q
               = (Throw, mkPage (vars q) (isActive q) (lightLevelText q)
                           (playCalls q ++ [e]))) ->
  transitions playSound brightness t p
  = (Throw,
     mkPage (vars p) (isActive p) (lightLevelText p)
       (playCalls p ++ played (vars p) brightness t)).
Proof.
  intros Hout Hsome Hplay.
  unfold played, detectLightLevel in *.
  destruct (Z.ltb_spec (t - lastTriggerTime (vars p)) triggerCooldown); [lia |].
  cbv beta iota zeta delta [transitions bind andThen readVars assign ret].
  destruct ((brightness - previousLightLevel (vars p) >? sensitivity (vars p))
            && negb (isChestOpen (vars p))).
  - cbv beta iota delta [bind andThen assign ret]. rewrite Hplay. reflexivity.
  - destruct ((brightness - previousLightLevel (vars p) <? - sensitivity (vars p))
              && isChestOpen (vars p)).
    + cbv beta iota delta [bind andThen assign ret]. rewrite Hplay. reflexivity.
    + exfalso. apply Hsome. reflexivity.
Qed.

Lemma playChestSound_completes (b : Browser) :
  isPromise (play b) = true ->
  forall e q, Script.playChestSound b e q
              = (Normal tt, mkPage (vars q) (isActive q) (lightLevelText q)
                              (playCalls q ++ [e])).
Proof.
  intros Hplay e q. unfold Script.playChestSound, andThen, bind, soundCalled.
  destruct (play b); try discriminate. reflexivity.
Qed.

Lemma playChestSound_throws (b : Browser) :
  isPromise (play b) = false ->
  forall e q, Script.playChestSound b e q
              = (Throw, mkPage (vars q) (isActive q) (lightLevelText q)
                          (playCalls q ++ [e])).
Proof.
  intros Hplay e q. unfold Script.playChestSound, andThen, bind, soundCalled.
  destruct (play b); try discriminate; reflexivity.
Qed.

Lemma playChestSound_tolerates (b : Browser) :
  throwsNot (play b) = true ->
  forall e q, ScriptTry.playChestSound b e q
              = (Normal tt, mkPage (vars q) (isActive q) (lightLevelText q)
                              (playCalls q ++ [e])).
Proof.
  intros Hplay e q. unfold ScriptTry.playChestSound, andThen, bind, soundCalled.
  destruct (play b); try discriminate; reflexivity.
Qed.

(** Lines 157-196 on a frame, when the sound function completes or is not
    called. *)
Lemma sampleAndDetect_complete (playSound : Event -> JS unit) (b : Browser)
  (p : Page) (red green blue : Z) :
  drawImage b = Normal tt ->
  getImageData b = Normal (red, green, blue) ->
  played (vars p) (brightnessOf red green blue) (dateNow b) = []
  \/ (forall e q, playSound e q
                  = (Normal tt, mkPage (vars q) (isActive q) (lightLevelText q)
                                  (playCalls q ++ [e]))) ->
  sampleAndDetect playSound b p = (Normal tt, pageAfter b p red green blue).
Proof.
  intros Hdraw Hget Hplay.
  cbv beta iota zeta delta [sampleAndDetect bind andThen browserCall
                            showLightLevel readVars ret].
  rewrite Hdraw, Hget. cbv beta iota. cbn [vars].
  destruct (Z.ltb_spec (dateNow b - lastTriggerTime (vars p)) triggerCooldown)
    as [Hin | Hout].
  - unfold pageAfter, after, played.
    rewrite (detect_locked _ (brightnessOf red green blue) _ Hin).
    cbn [fst snd]. rewrite app_nil_r. reflexivity.
  - rewrite transitions_complete; [reflexivity | exact Hout | exact Hplay].
Qed.

(** Lines 157-196 on a frame, when the sound function is called and
    throws. *)
Lemma sampleAndDetect_throw (playSound : Event -> JS unit) (b : Browser)
  (p : Page) (red green blue : Z) :
  drawImage b = Normal tt ->
  getImageData b = Normal (red, green, blue) ->
  played (vars p) (brightnessOf red green blue) (dateNow b) <> [] ->
  (forall e q, playSound e q
               = (Throw, mkPage (vars q) (isActive q) (lightLevelText q)
                           (playCalls q ++ [e]))) ->
  sampleAndDetect playSound b p
  = (Throw,
     mkPage (vars p) (isActive p) (Some (brightnessOf red green blue))
       (playCalls p ++ played (vars p) (brightnessOf red green blue) (dateNow b))).
Proof.
  intros Hdraw Hget Hsome Hplay.
  cbv beta iota zeta delta [sampleAndDetect bind andThen browserCall
                            showLightLevel readVars ret].
  rewrite Hdraw, Hget. cbv beta iota. cbn [vars].
  destruct (Z.ltb_spec (dateNow b - lastTriggerTime (vars p)) triggerCooldown)
    as [Hin | Hout].
  - exfalso. apply Hsome. unfold played.
    rewrite (detect_locked _ (brightnessOf red green blue) _ Hin). reflexivity.
  - rewrite transitions_throw; [reflexivity | exact Hout | exact Hsome | exact Hplay].
Qed.

Lemma guard_passed (b : Browser) (p : Page) :
  isActive p = true -> videoWidth b <> 0 ->
  negb (isActive p) || (videoWidth b =? 0) = false.
Proof.
  intros -> Hwidth. cbn. apply Z.eqb_neq. exact Hwidth.
Qed.


(** X14.  When the browser hands over a frame and the sound function is not
    called or its [play()] returns a promise, fulfilled or rejected, the call
    of [detectLightLevel] completes, shows the brightness of the frame, and
    leaves the variables and the sounds exactly as the detector of lines
    170-196 does on that brightness and the time read: the outcome of the
    promise has no part in it. *)
Theorem script_agrees_with_detector (b : Browser) (p : Page) (red green blue : Z) :
  framed b p red green blue ->
  played (vars p) (brightnessOf red green blue) (dateNow b) = []
  \/ isPromise (play b) = true ->
  Script.detectLightLevel b p = (Normal tt, pageAfter b p red green blue).
Proof.
  intros (Hactive & Hwidth & Hdraw & Hget) Hplay.
  unfold Script.detectLightLevel. rewrite (guard_passed b p Hactive Hwidth).
  apply sampleAndDetect_complete; [exact Hdraw | exact Hget |].
  destruct Hplay as [Hnone | Hpromise]; [left; exact Hnone |].
  right. apply playChestSound_completes. exact Hpromise.
Qed.

Lemma script_agrees_with_detector_witness :
  Script.detectLightLevel
    (mkBrowser 320 (Normal tt) (Normal (70, 70, 70)) 5000 (PlayPromise false))
    closedPage
  = (Normal tt, mkPage (mkGlobals 10 true 50 5000) true (Some 70) [OpenedEvent]).
Proof.
  apply (script_agrees_with_detector
           (mkBrowser 320 (Normal tt) (Normal (70, 70, 70)) 5000 (PlayPromise false))
           closedPage 70 70 70).
  - repeat split. discriminate.
  - right. reflexivity.
Defined.

(** X15.  A call of [detectLightLevel] (lines 154-197) throws in exactly
    three cases, all behind the guard of its first line: [drawImage] throws,
    [getImageData] throws, or the sample calls for a sound and [play()] does
    not return a promise.  In the last case the display has been updated and
    the sound function entered, but no variable of the detector is
    written. *)
Theorem script_raises_exactly_when (b : Browser) (p : Page) :
  (fst (Script.detectLightLevel b p) = Throw
   <-> isActive p = true /\ videoWidth b <> 0
       /\ (drawImage b = Throw
           \/ drawImage b = Normal tt
              /\ (getImageData b = Throw
                  \/ exists red green blue,
                       getImageData b = Normal (red, green, blue)
                       /\ played (vars p) (brightnessOf red green blue) (dateNow b) <> []
                       /\ isPromise (play b) = false)))
  /\ (forall red green blue,
        framed b p red green blue ->
        played (vars p) (brightnessOf red green blue) (dateNow b) <> [] ->
        isPromise (play b) = false ->
        Script.detectLightLevel b p
        = (Throw,
           mkPage (vars p) (isActive p) (Some (brightnessOf red green blue))
             (playCalls p
                ++ played (vars p) (brightnessOf red green blue) (dateNow b)))).
Proof.
  assert (Hlast : forall red green blue,
             framed b p red green blue ->
             played (vars p) (brightnessOf red green blue) (dateNow b) <> [] ->
             isPromise (play b) = false ->
             Script.detectLightLevel b p
             = (Throw,
                mkPage (vars p) (isActive p) (Some (brightnessOf red green blue))
                  (playCalls p
                     ++ played (vars p) (brightnessOf red green blue) (dateNow b)))).
  { intros red green blue (Hactive & Hwidth & Hdraw & Hget) Hsome Hplay.
    unfold Script.detectLightLevel. rewrite (guard_passed b p Hactive Hwidth).
    apply sampleAndDetect_throw; try assumption.
    apply playChestSound_throws. exact Hplay. }
  split; [| exact Hlast].
  split.
  - intros Hthrow. unfold Script.detectLightLevel in Hthrow.
    destruct (isActive p) eqn:Hactive; [| discriminate].
    destruct (Z.eqb_spec (videoWidth b) 0) as [Hzero | Hwidth]; [discriminate |].
    cbn [negb orb] in Hthrow.
    split; [reflexivity |]. split; [exact Hwidth |].
    destruct (drawImage b) as [[] |] eqn:Hdraw; [| left; reflexivity].
    right. split; [reflexivity |].
    destruct (getImageData b) as [[[red green] blue] |] eqn:Hget;
      [| left; reflexivity].
    right. exists red, green, blue. split; [reflexivity |].
    destruct (played (vars p) (brightnessOf red green blue) (dateNow b)) eqn:Hplayed.
    + rewrite (sampleAndDetect_complete _ b p red green blue Hdraw Hget) in Hthrow;
        [discriminate | left; exact Hplayed].
    + split; [discriminate |].
      destruct (isPromise (play b)) eqn:Hplay; [| reflexivity].
      rewrite (sampleAndDetect_complete _ b p red green blue Hdraw Hget) in Hthrow;
        [discriminate |].
      right. apply playChestSound_completes. exact Hplay.
  - intros (Hactive & Hwidth & Hcases).
    destruct Hcases as [Hdraw | (Hdraw & [Hget | (red & green & blue & Hget & Hsome & Hplay)])].
    + unfold Script.detectLightLevel. rewrite (guard_passed b p Hactive Hwidth).
      cbv beta iota zeta delta [sampleAndDetect bind andThen browserCall].
      rewrite Hdraw. reflexivity.
    + unfold Script.detectLightLevel. rewrite (guard_passed b p Hactive Hwidth).
      cbv beta iota zeta delta [sampleAndDetect bind andThen browserCall].
      rewrite Hdraw, Hget. reflexivity.
    + rewrite (Hlast red green blue); [reflexivity | | exact Hsome | exact Hplay].
      repeat split; assumption.
Qed.

Lemma script_raises_exactly_when_witness :
  fst (Script.detectLightLevel
         (mkBrowser 320 (Normal tt) Throw 5000 (PlayPromise true)) closedPage)
  = Throw.
Proof.
  apply (script_raises_exactly_when
           (mkBrowser 320 (Normal tt) Throw 5000 (PlayPromise true)) closedPage).
  split; [reflexivity |]. split; [discriminate |].
  right. split; [reflexivity |]. left. reflexivity.
Defined.

(** X16.  The later version of [detectLightLevel] (lines 356-400) never
    throws, whatever the browser does.  On a frame, with a sound function
    that is not called or whose [play()] returns a promise or [undefined],
    it leaves the page exactly as the detector of lines 170-196
    prescribes. *)
Theorem script_try_never_raises (b : Browser) (p : Page) :
  fst (ScriptTry.detectLightLevel b p) = Normal tt
  /\ (forall red green blue,
        framed b p red green blue ->
        played (vars p) (brightnessOf red green blue) (dateNow b) = []
        \/ throwsNot (play b) = true ->
        ScriptTry.detectLightLevel b p = (Normal tt, pageAfter b p red green blue)).
Proof.
  split.
  - unfold ScriptTry.detectLightLevel, tryCatch.
    destruct (negb (isActive p) || (videoWidth b =? 0)); [reflexivity |].
    destruct (sampleAndDetect (ScriptTry.playChestSound b) b p) as [[[] |] p1];
      reflexivity.
  - intros red green blue (Hactive & Hwidth & Hdraw & Hget) Hplay.
    unfold ScriptTry.detectLightLevel, tryCatch.
    rewrite (guard_passed b p Hactive Hwidth).
    rewrite (sampleAndDetect_complete _ b p red green blue Hdraw Hget);
      [reflexivity |].
    destruct Hplay as [Hnone | Hok]; [left; exact Hnone |].
    right. apply playChestSound_tolerates. exact Hok.
Qed.

Lemma script_try_never_raises_witness :
  ScriptTry.detectLightLevel promiselessBrowser closedPage
  = (Normal tt, pageAfter promiselessBrowser closedPage 70 70 70).
Proof.
  apply (script_try_never_raises promiselessBrowser closedPage).
  - repeat split. discriminate.
  - right. reflexivity.
Defined.
